(** * Polymer flooding economic calculator ([calc4.py])

    A shallow embedding of the computational core of [calc4.py]: the
    polymer catalog, the revenue and OPEX series generators, the
    per-polymer cash-flow ledger, the NPV discounting loop and the
    best-by-NPV selection loop of [main].

    Number model.  Python [float] and [int] values are embedded as exact
    rationals ([Q]); the arithmetic operators are the exact ones, so
    the rounding error, the overflow and the special values of binary64
    are outside the model.  The
    exceptions Python raises on the paths modelled here are kept:
    [KeyError] (dict lookup), [IndexError] (list indexing) and
    [ZeroDivisionError] (true division by zero).  Equality of numbers is
    therefore stated with [==] ([Qeq]) wherever two different
    expressions denote the same rational, and with [=] where the code
    computes literally that expression. *)

From Stdlib Require Import ZArith QArith Qround Qpower Qminmax.
From Stdlib Require Import List String Bool Lia Lqa Setoid Morphisms.
Import ListNotations.

Local Open Scope Q_scope.

(** ** Exceptions and the error monad *)

Inductive exn : Type :=
| KeyError
| IndexError
| ZeroDivisionError.

Inductive result (A : Type) : Type :=
| Ok (a : A)
| Raise (e : exn).

Arguments Ok {A} a.
Arguments Raise {A} e.

Definition bind {A B : Type} (m : result A) (k : A -> result B) : result B :=
  match m with
  | Ok a => k a
  | Raise e => Raise e
  end.

Notation "x <- m ;; k" := (bind m (fun x => k))
  (at level 61, m at next level, right associativity).

(** A [for] loop over a list whose body threads a state and may raise. *)
Fixpoint for_each {S A : Type} (body : S -> A -> result S)
         (xs : list A) (st : S) : result S :=
  match xs with
  | [] => Ok st
  | x :: xs' => st' <- body st x ;; for_each body xs' st'
  end.

(** ** Python primitives used by the program *)

Module Py.

(** [range(a, b)] over the integers. *)
Definition range (a b : Z) : list Z :=
  map (fun i => (a + Z.of_nat i)%Z) (seq 0 (Z.to_nat (b - a))).

(** [l[i]], with Python's negative indices. *)
Definition getitem {A : Type} (l : list A) (i : Z) : result A :=
  let j := if (i <? 0)%Z then (i + Z.of_nat (List.length l))%Z else i in
  if (j <? 0)%Z then Raise IndexError
  else match nth_error l (Z.to_nat j) with
       | Some x => Ok x
       | None => Raise IndexError
       end.

(** [x < y] on numbers. *)
Definition ltb (x y : Q) : bool := negb (Qle_bool y x).

(** [max(a, b)]: the first argument is kept unless the second is
    strictly greater. *)
Definition max (a b : Q) : Q := if ltb a b then b else a.

(** [a / b], true division. *)
Definition div (a b : Q) : result Q :=
  if Qeq_bool b 0 then Raise ZeroDivisionError else Ok (a / b).

(** [x ** t] for an integer exponent; every call site has [t >= 1],
    where the power raises nothing. *)
Definition pow (x : Q) (t : Z) : Q := x ^ t.

(** Rounding of a rational to the nearest integer, ties to even. *)
Definition round_half_even (x : Q) : Z :=
  let f := Qfloor x in
  match Qcompare (x - inject_Z f) (1 # 2) with
  | Lt => f
  | Gt => (f + 1)%Z
  | Eq => if Z.even f then f else (f + 1)%Z
  end.

(** [round(x, 2)]: the nearest multiple of 1/100, ties to even. *)
Definition round2 (x : Q) : Q := round_half_even (x * 100) # 100.

(** [d[key]] on a dict kept as an association list in insertion order. *)
Fixpoint dict_get {V : Type} (d : list (string * V)) (key : string)
  : result V :=
  match d with
  | [] => Raise KeyError
  | (k, v) :: d' => if String.eqb k key then Ok v else dict_get d' key
  end.

(** [d[key] = v]: an existing key keeps its position, a new one goes last. *)
Fixpoint dict_set {V : Type} (d : list (string * V)) (key : string) (v : V)
  : list (string * V) :=
  match d with
  | [] => [(key, v)]
  | (k, w) :: d' =>
      if String.eqb k key then (k, v) :: d' else (k, w) :: dict_set d' key v
  end.

(** [d.keys()], in insertion order. *)
Definition keys {V : Type} (d : list (string * V)) : list string :=
  map fst d.

End Py.

(** ** Default settings and the catalog *)

Definition DISCOUNT_RATE_DEFAULT : Q := 0.08.
Definition BASE_REVENUE_DEFAULT : Q := 5500000.
Definition REVENUE_GROWTH_DEFAULT : Q := 0.06.
Definition OPEX_YEAR1_DEFAULT : Q := 910000.
Definition OPEX_GROWTH_LONG_DEFAULT : Q := 0.02.
Definition EQUIPMENT_REPLACEMENT_COST : Q := 30000.

Record PolymerData : Type := mkPolymerData {
  name : string;
  price_per_kg : Q;
  conc_kg_per_m3 : Q;
  inj_volume_m3 : Q
}.

Definition POLYMERS : list (string * PolymerData) :=
  [ ("hpam"%string,
     mkPolymerData "Partially hydrolyzed polyacrylamide (HPAM)" 1.3 0.8 100000);
    ("xanthan"%string,
     mkPolymerData "Xanthan gum (oilfield grade)" 2.4 0.6 100000);
    ("atbs"%string,
     mkPolymerData "ATBS-modified polyacrylamide" 1.9 0.7 100000) ].

(** ** Math utils *)

(** The body of the loop of [npv]: [total += cf / ((1 + rate) ** t)],
    with [t] counting from 1. *)
Fixpoint npv_loop (rate : Q) (cashflows : list Q) (t : Z) (total : Q)
  : result Q :=
  match cashflows with
  | [] => Ok total
  | cf :: rest =>
      term <- Py.div cf (Py.pow (1 + rate) t) ;;
      npv_loop rate rest (t + 1)%Z (total + term)
  end.

Definition npv (cashflows : list Q) (rate : Q) : result Q :=
  npv_loop rate cashflows 1%Z 0.

Definition polymer_cost (poly_key : string) : result Q :=
  data <- Py.dict_get POLYMERS poly_key ;;
  let mass := conc_kg_per_m3 data * inj_volume_m3 data in
  Ok (mass * price_per_kg data).

(** One pass of the loop of [generate_revenues] on the state
    [(vals, cur)]. *)
Definition revenues_step (growth : Q) (st : list Q * Q) : list Q * Q :=
  let '(vals, cur) := st in
  (vals ++ [Py.round2 cur], cur * (1 + growth)).

Definition generate_revenues (years : Z) (start growth : Q) : list Q :=
  fst (Nat.iter (Z.to_nat years) (revenues_step growth) ([], start)).

(** One pass of the loop of [generate_opex] on the list built so far. *)
Definition opex_step (start long_growth : Q) (opex : list Q) (year : Z)
  : result (list Q) :=
  if (year <=? 10)%Z then Ok (opex ++ [start])
  else
    prev <- Py.getitem opex (-1) ;;
    Ok (opex ++ [prev * (1 + long_growth)]).

Definition generate_opex (years : Z) (start long_growth : Q)
  : result (list Q) :=
  for_each (opex_step start long_growth) (Py.range 1 (years + 1)) [].

(** ** The cash-flow ledger *)

(** One row of the ledger (the dict appended to [rows]). *)
Record YearRecord : Type := mkYearRecord {
  year : Z;
  revenue : Q;
  opex : Q;
  polymer_exp : Q;
  equipment : Q;
  taxable_income : Q;
  tax : Q;
  net_profit : Q;
  cash_flow : Q
}.

(** The dict returned by [build_cashflow_for_polymer]. *)
Record PolymerResult : Type := mkPolymerResult {
  rows : list YearRecord;
  res_npv : Q;
  sum_cf : Q;
  cashflows : list Q
}.

(** The state of the ledger loop: [rows], [cashflows], [sum_cf]. *)
Definition ledger_state : Type := (list YearRecord * list Q * Q)%type.

(** The body of the [for year in range(1, years + 1)] loop. *)
Definition ledger_step (poly_cost_val : Q) (revenues opex_list : list Q)
           (tax_rate : Q) (st : ledger_state) (yr : Z) : result ledger_state :=
  let '(rws, cfs, sum) := st in
  rev <- Py.getitem revenues (yr - 1) ;;
  opx <- Py.getitem opex_list (yr - 1) ;;
  let poly_exp := if (yr =? 1)%Z then poly_cost_val else 0 in
  let equip :=
    if ((yr mod 10 =? 0)%Z && (yr >? 1)%Z)%bool
    then EQUIPMENT_REPLACEMENT_COST else 0 in
  let taxable := rev - opx - poly_exp - equip in
  let tx := Py.max taxable 0 * tax_rate in
  let net := taxable - tx in
  let cf := net in
  Ok (rws ++ [mkYearRecord yr rev opx poly_exp equip taxable tx net cf],
      cfs ++ [cf],
      sum + cf).

Definition build_cashflow_for_polymer
           (poly_key : string) (years : Z) (revenues opex_list : list Q)
           (tax_rate discount_rate : Q) : result PolymerResult :=
  poly_cost_val <- polymer_cost poly_key ;;
  st <- for_each (ledger_step poly_cost_val revenues opex_list tax_rate)
                 (Py.range 1 (years + 1)) ([], [], 0) ;;
  let '(rws, cfs, sum) := st in
  project_npv <- npv cfs discount_rate ;;
  Ok (mkPolymerResult rws project_npv sum cfs).

(** ** The comparison step of [main] *)

(** [best_npv] starts at [float("-inf")]. *)
Inductive best_value : Type :=
| NegInf
| Fin (v : Q).

(** [x > best] against the running best value. *)
Definition gt_best (x : Q) (best : best_value) : bool :=
  match best with
  | NegInf => true
  | Fin b => Py.ltb b x
  end.

(** The state of the selection loop: [results], [best_poly], [best_npv]. *)
Definition compare_state : Type :=
  (list (string * PolymerResult) * option string * best_value)%type.

(** The body of the [for key in POLYMERS.keys()] loop. *)
Definition compare_step (years : Z) (revenues opex_list : list Q)
           (tax_rate discount_rate : Q) (st : compare_state) (key : string)
  : result compare_state :=
  let '(results, best_poly, best_npv) := st in
  res <- build_cashflow_for_polymer key years revenues opex_list
                                    tax_rate discount_rate ;;
  let results' := Py.dict_set results key res in
  if gt_best (res_npv res) best_npv
  then Ok (results', Some key, Fin (res_npv res))
  else Ok (results', best_poly, best_npv).

(** Steps 3 and 4 of [main]: the series are built once, then every
    catalog key is evaluated and the best NPV tracked. *)
Definition main_compare (years : Z)
           (tax_rate discount_rate base_revenue revenue_growth
            opex_year1 opex_growth_long : Q) : result compare_state :=
  let revenues := generate_revenues years base_revenue revenue_growth in
  opex_list <- generate_opex years opex_year1 opex_growth_long ;;
  for_each (compare_step years revenues opex_list tax_rate discount_rate)
           (Py.keys POLYMERS) ([], None, NegInf).

(** ** The pure parts of the interactive shell of [main] *)

(** Step 1 of [main]: [yrs] is the stripped answer and [int_yrs] the
    outcome of [int(yrs)], [None] when it raises [ValueError]. *)
Definition select_years (yrs : string) (int_yrs : option Z) : Z :=
  if String.eqb yrs "" then 10%Z
  else match int_yrs with
       | Some n => Z.max 1 (Z.min 20 n)
       | None => 10%Z
       end.

(** [key in d]. *)
Definition dict_mem {V : Type} (d : list (string * V)) (key : string) : bool :=
  existsb (fun kv => String.eqb (fst kv) key) d.



(** Step 6 of [main]: what one answer of the detail prompt leads to. *)
Definition key_map : list (string * string) :=
  [("1", "hpam"); ("2", "xanthan"); ("3", "atbs")]%string.

Inductive detail_action : Type :=
| Stop
| Show (title : string) (rws : list YearRecord)
| UnknownKey.

(** [ans] is the stripped, lower-cased answer. *)
Definition detail_step (results : list (string * PolymerResult))
           (ans : string) : result detail_action :=
  if existsb (String.eqb ans) ["n"; "no"; ""]%string then Ok Stop
  else
    k <- (if dict_mem key_map ans then Py.dict_get key_map ans else Ok ans) ;;
    if dict_mem results k then
      pdata <- Py.dict_get POLYMERS k ;;
      res <- Py.dict_get results k ;;
      Ok (Show (name pdata) (rows res))
    else Ok UnknownKey.



(** ** Reference formulas

    These two definitions follow the words of the specification, not
    the code; the loop of [npv] is compared with them below. *)


(** The arithmetic sum of a sequence. *)
Definition arithmetic_sum (l : list Q) : Q := fold_right Qplus 0 l.

(** The discounted terms of a sequence whose first element sits at
    period [t]. *)
Fixpoint discounted_from (rate : Q) (cashflows : list Q) (t : Z) : Q :=
  match cashflows with
  | [] => 0
  | cf :: rest => cf / (1 + rate) ^ t + discounted_from rate rest (t + 1)
  end.

(** ** Closed forms and loop invariants used in the proofs *)

(** What the loop body writes into the row of year [year r]. *)
Definition ledger_row_ok (poly_cost_val tax_rate : Q) (r : YearRecord) : Prop :=
  polymer_exp r = (if (year r =? 1)%Z then poly_cost_val else 0) /\
  equipment r =
    (if ((year r mod 10 =? 0)%Z && (year r >? 1)%Z)%bool
     then EQUIPMENT_REPLACEMENT_COST else 0) /\
  taxable_income r = revenue r - opex r - polymer_exp r - equipment r /\
  tax r = Py.max (taxable_income r) 0 * tax_rate /\
  net_profit r = taxable_income r - tax r /\
  cash_flow r = net_profit r.

(** The unrounded running value [cur] after [i] passes of the loop. *)
Definition compound (start growth : Q) (i : nat) : Q :=
  Nat.iter i (fun cur => cur * (1 + growth)) start.

(** The value stored for index [i] (year [i + 1]): [start] on the
    plateau, the previous value times [1 + long_growth] after it. *)
Fixpoint opex_value (start long_growth : Q) (i : nat) : Q :=
  match i with
  | O => start
  | S j =>
      if (i <? 10)%nat then start
      else opex_value start long_growth j * (1 + long_growth)
  end.

(** Where the loop body reads the revenue and the opex of a row. *)
Definition ledger_row_from (revenues opex_list : list Q) (r : YearRecord)
  : Prop :=
  Py.getitem revenues (year r - 1) = Ok (revenue r) /\
  Py.getitem opex_list (year r - 1) = Ok (opex r).

(** ** The invariant of the selection loop *)

Section SelectionInvariant.

(** The result computed for one key under the shared configuration. *)
Variable build : string -> result PolymerResult.

(** The best key splits the visited keys: strictly smaller NPV before
    it, no greater NPV after it. *)
Definition best_of (visited : list string) (best_poly : option string)
           (best_npv : best_value) : Prop :=
  exists k res pre post,
    visited = pre ++ k :: post /\
    best_poly = Some k /\
    build k = Ok res /\
    best_npv = Fin (res_npv res) /\
    (forall k' res', In k' pre -> build k' = Ok res' ->
                     res_npv res' < res_npv res) /\
    (forall k' res', In k' post -> build k' = Ok res' ->
                     res_npv res' <= res_npv res).

Definition selection_inv (visited : list string) (st : compare_state) : Prop :=
  let '(results, best_poly, best_npv) := st in
  (forall k, In k visited ->
             exists res, build k = Ok res /\ Py.dict_get results k = Ok res) /\
  ((visited = [] /\ best_poly = None /\ best_npv = NegInf) \/
   best_of visited best_poly best_npv).

End SelectionInvariant.

(** * Properties *)

(** ** Loops and ranges *)

Lemma for_each_app {S A : Type} (body : S -> A -> result S)
      (xs ys : list A) (st : S) :
  for_each body (xs ++ ys) st =
  (st' <- for_each body xs st ;; for_each body ys st').
Proof.
  revert st; induction xs as [|x xs IH]; intros st; simpl.
  - reflexivity.
  - destruct (body st x) as [st1|e]; simpl; [apply IH | reflexivity].
Qed.

(** Invariant rule for [for_each]: [P pre st] relates the elements
    already visited to the state they produced. *)
Lemma for_each_invariant {S A : Type} (body : S -> A -> result S)
      (P : list A -> S -> Prop) :
  (forall pre x st st',
      P pre st -> body st x = Ok st' -> P (pre ++ [x]) st') ->
  forall xs pre st st',
    P pre st -> for_each body xs st = Ok st' -> P (pre ++ xs) st'.
Proof.
  intros Hstep xs; induction xs as [|x xs IH]; intros pre st st' HP Hrun.
  - simpl in Hrun. inversion Hrun; subst. now rewrite app_nil_r.
  - simpl in Hrun. destruct (body st x) as [st1|e] eqn:Hb; simpl in Hrun.
    + replace (pre ++ x :: xs) with ((pre ++ [x]) ++ xs)
        by (now rewrite <- app_assoc).
      eapply IH; [eapply Hstep; eassumption | exact Hrun].
    + discriminate.
Qed.

Lemma range_from_1 (years : Z) :
  Py.range 1 (years + 1) =
  map (fun i => Z.of_nat (S i)) (seq 0 (Z.to_nat years)).
Proof.
  unfold Py.range. replace (years + 1 - 1)%Z with years by lia.
  apply map_ext. intros i. lia.
Qed.

Lemma range_length (years : Z) :
  List.length (Py.range 1 (years + 1)) = Z.to_nat years.
Proof. now rewrite range_from_1, length_map, length_seq. Qed.

(** ** Division, power and comparison *)

Lemma div_ok (a b : Q) : ~ b == 0 -> Py.div a b = Ok (a / b).
Proof.
  intros Hb. unfold Py.div.
  destruct (Qeq_bool b 0) eqn:E; [|reflexivity].
  apply Qeq_bool_eq in E. contradiction.
Qed.


Lemma ltb_lt (x y : Q) : Py.ltb x y = true <-> x < y.
Proof.
  unfold Py.ltb. rewrite negb_true_iff.
  destruct (Qle_bool y x) eqn:E.
  - apply Qle_bool_iff in E. split; [discriminate | intros H; lra].
  - split; [intros _ | reflexivity].
    apply Qnot_le_lt. intros H. apply Qle_bool_iff in H. congruence.
Qed.

Lemma ltb_ge (x y : Q) : Py.ltb x y = false <-> y <= x.
Proof.
  unfold Py.ltb. rewrite negb_false_iff. apply Qle_bool_iff.
Qed.

(** Python's [max] is the library maximum. *)
Lemma max_Qmax (a b : Q) : Py.max a b = Qmax a b.
Proof.
  unfold Py.max, Qmax, GenericMinMax.gmax.
  destruct (Qcompare_spec a b) as [E|E|E], (Py.ltb a b) eqn:L;
    try reflexivity.
  - apply ltb_lt in L. lra.
  - apply ltb_ge in L. lra.
  - apply ltb_lt in L. lra.
Qed.



Lemma pow_zero_iff (a : Q) (t : Z) : (0 < t)%Z -> (a ^ t == 0 <-> a == 0).
Proof.
  intros Ht. split.
  - intros H. destruct (Qeq_dec a 0) as [E|E]; [exact E|].
    exfalso. exact (Qpower_not_0 a t E H).
  - intros H. rewrite H. apply Qpower_0. lia.
Qed.

(** ** The NPV loop *)

(** With a rate other than -1 the loop returns, and adds the discounted
    terms to the running total. *)
Lemma npv_loop_ok (rate : Q) (cashflows : list Q) :
  ~ rate == -1 ->
  forall (t : Z) (total : Q),
    (0 < t)%Z ->
    exists v, npv_loop rate cashflows t total = Ok v /\
              v == total + discounted_from rate cashflows t.
Proof.
  intros Hr. induction cashflows as [|cf rest IH]; intros t total Ht; simpl.
  - exists total. split; [reflexivity | ring].
  - unfold Py.pow. rewrite div_ok.
    + simpl. destruct (IH (t + 1)%Z (total + cf / (1 + rate) ^ t))
        as [v [Hv Heq]]; [lia|].
      exists v. split; [exact Hv | rewrite Heq; ring].
    + rewrite pow_zero_iff by exact Ht. intros H. apply Hr. lra.
Qed.




Lemma discounted_from_zero_rate (cashflows : list Q) (t : Z) :
  discounted_from 0 cashflows t == arithmetic_sum cashflows.
Proof.
  revert t. induction cashflows as [|cf rest IH]; intros t; simpl.
  - reflexivity.
  - rewrite IH. apply Qplus_comp; [|reflexivity].
    assert (E : (1 + 0) ^ t == 1).
    { transitivity (1 ^ t); [|apply Qpower_1].
      apply Qpower_comp; [ring | reflexivity]. }
    rewrite E. field.
Qed.








(** C10: on the empty cash-flow sequence [npv] returns 0 at every
    rate, the rate -1 included. *)
Theorem npv_empty (rate : Q) : npv [] rate = Ok 0.
Proof. reflexivity. Qed.




(** ** Which exceptions can be raised *)

Lemma for_each_raises {S A : Type} (body : S -> A -> result S)
      (P : exn -> Prop) :
  (forall st x e, body st x = Raise e -> P e) ->
  forall xs st e, for_each body xs st = Raise e -> P e.
Proof.
  intros Hbody xs; induction xs as [|x xs IH]; intros st e Hrun; simpl in Hrun.
  - discriminate.
  - destruct (body st x) as [st1|e1] eqn:Hb; simpl in Hrun.
    + eapply IH; exact Hrun.
    + inversion Hrun; subst. eapply Hbody; exact Hb.
Qed.

Lemma getitem_raises {A : Type} (l : list A) (i : Z) (e : exn) :
  Py.getitem l i = Raise e -> e = IndexError.
Proof.
  unfold Py.getitem.
  destruct (_ <? 0)%Z; [congruence|].
  destruct (nth_error _ _); congruence.
Qed.

Lemma ledger_step_raises (c : Q) (revenues opex_list : list Q) (tax_rate : Q)
      (st : ledger_state) (yr : Z) (e : exn) :
  ledger_step c revenues opex_list tax_rate st yr = Raise e -> e = IndexError.
Proof.
  unfold ledger_step. destruct st as [[rws cfs] sum].
  destruct (Py.getitem revenues (yr - 1)) as [rev|e1] eqn:E1; simpl.
  - destruct (Py.getitem opex_list (yr - 1)) as [opx|e2] eqn:E2; simpl.
    + discriminate.
    + intros H; inversion H; subst. eapply getitem_raises; exact E2.
  - intros H; inversion H; subst. eapply getitem_raises; exact E1.
Qed.

Lemma npv_loop_raises (rate : Q) (cashflows : list Q) :
  forall (t : Z) (total : Q) (e : exn),
    npv_loop rate cashflows t total = Raise e -> e = ZeroDivisionError.
Proof.
  induction cashflows as [|cf rest IH]; intros t total e; simpl.
  - discriminate.
  - unfold Py.div. destruct (Qeq_bool _ 0); simpl.
    + congruence.
    + apply IH.
Qed.

(** ** The catalog lookup *)

Lemma dict_get_in {V : Type} (d : list (string * V)) (key : string) :
  In key (Py.keys d) -> exists v, Py.dict_get d key = Ok v.
Proof.
  induction d as [|[k v] d IH]; simpl; intros Hin.
  - contradiction.
  - destruct (String.eqb k key) eqn:E.
    + exists v. reflexivity.
    + destruct Hin as [Hk | Hin].
      * subst. rewrite String.eqb_refl in E. discriminate.
      * apply IH. exact Hin.
Qed.

Lemma dict_get_not_in {V : Type} (d : list (string * V)) (key : string) :
  ~ In key (Py.keys d) -> Py.dict_get d key = Raise KeyError.
Proof.
  induction d as [|[k v] d IH]; simpl; intros Hnin.
  - reflexivity.
  - destruct (String.eqb k key) eqn:E.
    + apply String.eqb_eq in E. exfalso. apply Hnin. now left.
    + apply IH. intros H. apply Hnin. now right.
Qed.

Lemma keys_dec (key : string) (ks : list string) :
  {In key ks} + {~ In key ks}.
Proof. apply in_dec. exact string_dec. Qed.

Lemma polymer_cost_present (poly_key : string) :
  In poly_key (Py.keys POLYMERS) ->
  exists data,
    Py.dict_get POLYMERS poly_key = Ok data /\
    polymer_cost poly_key =
    Ok (conc_kg_per_m3 data * inj_volume_m3 data * price_per_kg data).
Proof.
  intros Hin. destruct (dict_get_in POLYMERS poly_key Hin) as [data Hd].
  exists data. split; [exact Hd|].
  unfold polymer_cost. rewrite Hd. reflexivity.
Qed.

Lemma polymer_cost_absent (poly_key : string) :
  ~ In poly_key (Py.keys POLYMERS) -> polymer_cost poly_key = Raise KeyError.
Proof.
  intros Hnin. unfold polymer_cost.
  now rewrite (dict_get_not_in POLYMERS poly_key Hnin).
Qed.

(** C7: the cost lookup raises the unknown-key error ([KeyError], the
    only error of a dict lookup) if and only if the key is absent from
    the catalog; for a key of the catalog it returns the cost,
    concentration x volume x unit price, without error; and
    [build_cashflow_for_polymer] raises that error under the same
    condition, whatever its other arguments. *)
Theorem polymer_cost_unknown_key (poly_key : string) :
  (polymer_cost poly_key = Raise KeyError <->
   ~ In poly_key (Py.keys POLYMERS)) /\
  (In poly_key (Py.keys POLYMERS) ->
   exists data,
     Py.dict_get POLYMERS poly_key = Ok data /\
     polymer_cost poly_key =
     Ok (conc_kg_per_m3 data * inj_volume_m3 data * price_per_kg data)) /\
  (forall years revenues opex_list tax_rate discount_rate,
      build_cashflow_for_polymer poly_key years revenues opex_list
                                 tax_rate discount_rate = Raise KeyError <->
      ~ In poly_key (Py.keys POLYMERS)).
Proof.
  split; [|split].
  - split.
    + intros Hraise Hin.
      destruct (polymer_cost_present poly_key Hin) as [data [_ Hc]].
      congruence.
    + apply polymer_cost_absent.
  - apply polymer_cost_present.
  - intros years revenues opex_list tax_rate discount_rate. split.
    + intros Hraise Hin.
      destruct (polymer_cost_present poly_key Hin) as [data [_ Hc]].
      unfold build_cashflow_for_polymer in Hraise. rewrite Hc in Hraise.
      simpl in Hraise.
      destruct (for_each _ _ _) as [[[rws cfs] sum]|e] eqn:Hloop;
        simpl in Hraise.
      * destruct (npv cfs discount_rate) as [v|e] eqn:Hn; simpl in Hraise.
        -- discriminate.
        -- inversion Hraise; subst.
           apply npv_loop_raises in Hn. discriminate.
      * inversion Hraise; subst.
        apply (for_each_raises _ (fun e => e = IndexError)) in Hloop.
        -- discriminate.
        -- intros st x e. apply ledger_step_raises.
    + intros Hnin. unfold build_cashflow_for_polymer.
      now rewrite (polymer_cost_absent poly_key Hnin).
Qed.

Lemma polymer_cost_unknown_key_witness :
  In "xanthan"%string (Py.keys POLYMERS) /\
  exists data,
    Py.dict_get POLYMERS "xanthan" = Ok data /\
    polymer_cost "xanthan" =
    Ok (conc_kg_per_m3 data * inj_volume_m3 data * price_per_kg data).
Proof.
  assert (Hin : In "xanthan"%string (Py.keys POLYMERS))
    by (simpl; right; left; reflexivity).
  split; [exact Hin|].
  exact (proj1 (proj2 (polymer_cost_unknown_key "xanthan")) Hin).
Defined.

(** ** The ledger loop *)

Lemma ledger_step_row (c : Q) (revenues opex_list : list Q) (tax_rate : Q)
      (rws : list YearRecord) (cfs : list Q) (sum : Q) (yr : Z)
      (st' : ledger_state) :
  ledger_step c revenues opex_list tax_rate (rws, cfs, sum) yr = Ok st' ->
  exists r,
    st' = (rws ++ [r], cfs ++ [cash_flow r], sum + cash_flow r) /\
    year r = yr /\
    Py.getitem revenues (yr - 1) = Ok (revenue r) /\
    Py.getitem opex_list (yr - 1) = Ok (opex r) /\
    ledger_row_ok c tax_rate r.
Proof.
  unfold ledger_step.
  destruct (Py.getitem revenues (yr - 1)) as [rev|e1]; simpl; [|discriminate].
  destruct (Py.getitem opex_list (yr - 1)) as [opx|e2]; simpl; [|discriminate].
  intros H. inversion H; subst; clear H.
  match goal with
  | |- exists r, (_ ++ [?x], _, _) = _ /\ _ => exists x
  end.
  unfold ledger_row_ok; simpl. repeat split; reflexivity.
Qed.

Lemma ledger_loop_rows (c : Q) (revenues opex_list : list Q) (tax_rate : Q)
      (yrs : list Z) (rws : list YearRecord) (cfs : list Q) (sum : Q) :
  for_each (ledger_step c revenues opex_list tax_rate) yrs ([], [], 0)
  = Ok (rws, cfs, sum) ->
  map year rws = yrs /\
  Forall (ledger_row_ok c tax_rate) rws /\
  cfs = map cash_flow rws.
Proof.
  intros Hrun.
  pose (P := fun (pre : list Z) (st : ledger_state) =>
               let '(rws, cfs, _) := st in
               map year rws = pre /\
               Forall (ledger_row_ok c tax_rate) rws /\
               cfs = map cash_flow rws).
  change (P ([] ++ yrs) (rws, cfs, sum)).
  eapply (for_each_invariant _ P); [| |exact Hrun].
  - intros pre x [[rws0 cfs0] sum0] st' [Hy [Hok Hcf]] Hstep.
    apply ledger_step_row in Hstep.
    destruct Hstep as [r [-> [Hyr [_ [_ Hrow]]]]]. unfold P.
    repeat split.
    + rewrite map_app. simpl. now rewrite Hy, Hyr.
    + apply Forall_app. split; [exact Hok | now constructor].
    + rewrite map_app. simpl. now rewrite Hcf.
  - unfold P. repeat split. constructor.
Qed.

(** What a returned ledger is made of. *)
Lemma build_rows (poly_key : string) (years : Z) (revenues opex_list : list Q)
      (tax_rate discount_rate : Q) (res : PolymerResult) :
  build_cashflow_for_polymer poly_key years revenues opex_list
                             tax_rate discount_rate = Ok res ->
  exists c,
    polymer_cost poly_key = Ok c /\
    map year (rows res) = Py.range 1 (years + 1) /\
    Forall (ledger_row_ok c tax_rate) (rows res) /\
    cashflows res = map cash_flow (rows res) /\
    npv (cashflows res) discount_rate = Ok (res_npv res).
Proof.
  unfold build_cashflow_for_polymer. intros H.
  destruct (polymer_cost poly_key) as [c|e] eqn:Hc; simpl in H; [|discriminate].
  destruct (for_each _ _ _) as [[[rws cfs] sum]|e] eqn:Hloop; simpl in H;
    [|discriminate].
  destruct (npv cfs discount_rate) as [v|e] eqn:Hn; simpl in H; [|discriminate].
  inversion H; subst; clear H. simpl.
  apply ledger_loop_rows in Hloop. destruct Hloop as [Hy [Hok Hcf]].
  exists c. repeat split; assumption.
Qed.

(** C1: in every row of a ledger returned by
    [build_cashflow_for_polymer], taxable income = revenue - opex -
    polymer expense - equipment expense, tax = max(taxable income, 0) x
    tax rate, net profit = taxable income - tax, and cash flow = net
    profit. *)
Theorem ledger_invariant (poly_key : string) (years : Z)
        (revenues opex_list : list Q) (tax_rate discount_rate : Q)
        (res : PolymerResult) :
  build_cashflow_for_polymer poly_key years revenues opex_list
                             tax_rate discount_rate = Ok res ->
  Forall (fun r =>
            taxable_income r
            = revenue r - opex r - polymer_exp r - equipment r /\
            tax r = Qmax (taxable_income r) 0 * tax_rate /\
            net_profit r = taxable_income r - tax r /\
            cash_flow r = net_profit r)
         (rows res).
Proof.
  intros H. apply build_rows in H. destruct H as [c [_ [_ [Hok _]]]].
  eapply Forall_impl; [|exact Hok].
  intros r [_ [_ [Ht [Hx [Hn Hc]]]]].
  rewrite <- max_Qmax. repeat split; assumption.
Qed.

Lemma ledger_invariant_witness :
  exists res,
    build_cashflow_for_polymer "hpam" 2 [500000; 530000] [910000; 910000]
                               0.08 0.08 = Ok res /\
    Forall (fun r =>
              taxable_income r
              = revenue r - opex r - polymer_exp r - equipment r /\
              tax r = Qmax (taxable_income r) 0 * 0.08 /\
              net_profit r = taxable_income r - tax r /\
              cash_flow r = net_profit r)
           (rows res).
Proof.
  eexists. split; [vm_compute; reflexivity|].
  apply (ledger_invariant "hpam" 2 [500000; 530000] [910000; 910000]
                          0.08 0.08).
  vm_compute; reflexivity.
Defined.

(** ** The ledger is produced *)


Lemma range_in (years x : Z) :
  In x (Py.range 1 (years + 1)) -> (1 <= x <= years)%Z.
Proof.
  rewrite range_from_1. intros Hin. apply in_map_iff in Hin.
  destruct Hin as [i [<- Hi]]. apply in_seq in Hi. lia.
Qed.



Lemma catalog_costs :
  (exists c, polymer_cost "hpam" = Ok c /\ c == 104000) /\
  (exists c, polymer_cost "xanthan" = Ok c /\ c == 144000) /\
  (exists c, polymer_cost "atbs" = Ok c /\ c == 133000).
Proof.
  repeat split; eexists; (split; [vm_compute; reflexivity | reflexivity]).
Qed.

(** C3: in a ledger returned by [build_cashflow_for_polymer] the rows
    are those of the years 1..years in order; the polymer expense is
    the catalog cost (concentration x volume x unit price) in year 1
    and 0 in every other year; the equipment expense is 30,000 exactly
    in the years that are multiples of 10 and greater than 1, and 0 in
    all other years.  For the catalog of the program the year-1 expense
    is 104,000 for "hpam", 144,000 for "xanthan" and 133,000 for
    "atbs". *)
Theorem ledger_expenses (poly_key : string) (years : Z)
        (revenues opex_list : list Q) (tax_rate discount_rate : Q)
        (res : PolymerResult) :
  build_cashflow_for_polymer poly_key years revenues opex_list
                             tax_rate discount_rate = Ok res ->
  (exists data,
      Py.dict_get POLYMERS poly_key = Ok data /\
      map year (rows res) = Py.range 1 (years + 1) /\
      Forall (fun r =>
                (year r = 1%Z ->
                 polymer_exp r =
                 conc_kg_per_m3 data * inj_volume_m3 data * price_per_kg data) /\
                (year r <> 1%Z -> polymer_exp r = 0) /\
                ((year r mod 10 = 0)%Z /\ (1 < year r)%Z ->
                 equipment r = 30000) /\
                (~ ((year r mod 10 = 0)%Z /\ (1 < year r)%Z) ->
                 equipment r = 0))
             (rows res)) /\
  (exists c, polymer_cost "hpam" = Ok c /\ c == 104000) /\
  (exists c, polymer_cost "xanthan" = Ok c /\ c == 144000) /\
  (exists c, polymer_cost "atbs" = Ok c /\ c == 133000).
Proof.
  intros H. split; [|exact catalog_costs].
  apply build_rows in H. destruct H as [c [Hc [Hy [Hok _]]]].
  destruct (keys_dec poly_key (Py.keys POLYMERS)) as [Hin|Hnin].
  - destruct (polymer_cost_present poly_key Hin) as [data [Hd Hc']].
    exists data. split; [exact Hd|]. split; [exact Hy|].
    rewrite Hc in Hc'. inversion Hc'; subst c; clear Hc'.
    eapply Forall_impl; [|exact Hok].
    intros r [Hp [He _]]. rewrite Hp, He. clear Hp He.
    repeat split.
    + intros ->. reflexivity.
    + intros Hne. destruct (year r =? 1)%Z eqn:E; [|reflexivity].
      apply Z.eqb_eq in E. contradiction.
    + intros [Hm Hg].
      apply Z.eqb_eq in Hm. apply Z.gtb_lt in Hg. now rewrite Hm, Hg.
    + intros Hn.
      destruct (year r mod 10 =? 0)%Z eqn:Em; [|reflexivity].
      destruct (year r >? 1)%Z eqn:Eg; [|reflexivity].
      exfalso. apply Hn. split; [now apply Z.eqb_eq | now apply Z.gtb_lt].
  - rewrite (polymer_cost_absent poly_key Hnin) in Hc. discriminate.
Qed.

Lemma ledger_expenses_witness :
  exists res,
    build_cashflow_for_polymer
      "atbs" 10 (generate_revenues 10 5500000 0.06) (repeat 910000 10%nat)
      0.08 0.08 = Ok res /\
    (exists data,
        Py.dict_get POLYMERS "atbs" = Ok data /\
        map year (rows res) = Py.range 1 (10 + 1) /\
        Forall (fun r =>
                  (year r = 1%Z ->
                   polymer_exp r =
                   conc_kg_per_m3 data * inj_volume_m3 data
                   * price_per_kg data) /\
                  (year r <> 1%Z -> polymer_exp r = 0) /\
                  ((year r mod 10 = 0)%Z /\ (1 < year r)%Z ->
                   equipment r = 30000) /\
                  (~ ((year r mod 10 = 0)%Z /\ (1 < year r)%Z) ->
                   equipment r = 0))
               (rows res)) /\
    (exists c, polymer_cost "hpam" = Ok c /\ c == 104000) /\
    (exists c, polymer_cost "xanthan" = Ok c /\ c == 144000) /\
    (exists c, polymer_cost "atbs" = Ok c /\ c == 133000).
Proof.
  eexists. split; [vm_compute; reflexivity|].
  apply (ledger_expenses
           "atbs" 10 (generate_revenues 10 5500000 0.06) (repeat 910000 10%nat)
           0.08 0.08).
  vm_compute; reflexivity.
Defined.

(** ** The revenue series *)

Lemma revenues_iter (start growth : Q) (n : nat) :
  Nat.iter n (revenues_step growth) ([], start) =
  (map (fun i => Py.round2 (compound start growth i)) (seq 0 n),
   compound start growth n).
Proof.
  induction n as [|n IH].
  - reflexivity.
  - rewrite Nat.iter_succ, IH. unfold revenues_step.
    rewrite seq_S, map_app. reflexivity.
Qed.

Lemma compound_pow (start growth : Q) (i : nat) :
  compound start growth i == start * (1 + growth) ^ Z.of_nat i.
Proof.
  induction i as [|i IH].
  - simpl. ring.
  - unfold compound in *. rewrite Nat.iter_succ, IH.
    rewrite Nat2Z.inj_succ. unfold Z.succ.
    rewrite Qpower_plus' by lia. rewrite Qpower_1_r. ring.
Qed.


(** Rounding sees the rational, not its representation. *)
Lemma round_half_even_comp (x y : Q) :
  x == y -> Py.round_half_even x = Py.round_half_even y.
Proof.
  intros E. unfold Py.round_half_even.
  rewrite (Qfloor_comp x y E).
  assert (C : (x - inject_Z (Qfloor y) ?= 1 # 2)
              = (y - inject_Z (Qfloor y) ?= 1 # 2)).
  { apply Qcompare_comp; [rewrite E; reflexivity | reflexivity]. }
  now rewrite C.
Qed.

Lemma round2_comp (x y : Q) : x == y -> Py.round2 x = Py.round2 y.
Proof.
  intros E. unfold Py.round2. f_equal.
  apply round_half_even_comp. now rewrite E.
Qed.

Lemma generate_revenues_closed (years : Z) (start growth : Q) :
  generate_revenues years start growth =
  map (fun i => Py.round2 (start * (1 + growth) ^ Z.of_nat i))
      (seq 0 (Z.to_nat years)).
Proof.
  unfold generate_revenues. rewrite revenues_iter. simpl.
  apply map_ext. intros i. apply round2_comp. apply compound_pow.
Qed.



(** ** The OPEX series *)

Lemma opex_value_plateau (start long_growth : Q) (i : nat) :
  (i < 10)%nat -> opex_value start long_growth i = start.
Proof.
  intros Hi. destruct i as [|j]; [reflexivity|].
  cbn [opex_value]. destruct (Nat.ltb_spec (S j) 10); [reflexivity | lia].
Qed.

Lemma opex_value_growth (start long_growth : Q) (i : nat) :
  (10 <= i)%nat ->
  opex_value start long_growth i
  = opex_value start long_growth (i - 1) * (1 + long_growth).
Proof.
  intros Hi. destruct i as [|j]; [lia|].
  cbn [opex_value]. destruct (Nat.ltb_spec (S j) 10); [lia|].
  now replace (S j - 1)%nat with j by lia.
Qed.

Lemma getitem_last_map {A : Type} (f : nat -> A) (k : nat) :
  (0 < k)%nat ->
  Py.getitem (map f (seq 0 k)) (-1) = Ok (f (k - 1)%nat).
Proof.
  intros Hk. unfold Py.getitem. rewrite length_map, length_seq.
  change (-1 <? 0)%Z with true. cbv iota.
  destruct (-1 + Z.of_nat k <? 0)%Z eqn:E; [lia|].
  replace (Z.to_nat (-1 + Z.of_nat k)) with (k - 1)%nat by lia.
  rewrite nth_error_map, nth_error_seq.
  destruct (Nat.ltb_spec (k - 1) k); [reflexivity | lia].
Qed.

Lemma opex_loop_closed (start long_growth : Q) (m : nat) :
  forall k : nat,
    for_each (opex_step start long_growth)
             (map (fun i => Z.of_nat (S i)) (seq k m))
             (map (opex_value start long_growth) (seq 0 k))
    = Ok (map (opex_value start long_growth) (seq 0 (k + m))).
Proof.
  induction m as [|m IH]; intros k.
  - simpl. now rewrite Nat.add_0_r.
  - cbn [seq map for_each]. unfold opex_step at 1.
    replace (k + S m)%nat with (S k + m)%nat by lia.
    destruct (Z.of_nat (S k) <=? 10)%Z eqn:E.
    + apply Z.leb_le in E. cbn [bind]. rewrite <- IH. f_equal.
      rewrite seq_S, map_app. cbn [map Nat.add].
      rewrite opex_value_plateau by lia. reflexivity.
    + apply Z.leb_gt in E.
      rewrite getitem_last_map by lia. cbn [bind]. rewrite <- IH. f_equal.
      rewrite seq_S, map_app. cbn [map Nat.add].
      rewrite (opex_value_growth start long_growth k) by lia. reflexivity.
Qed.

(** [generate_opex] always returns, and returns the closed form. *)
Lemma generate_opex_closed (years : Z) (start long_growth : Q) :
  generate_opex years start long_growth
  = Ok (map (opex_value start long_growth) (seq 0 (Z.to_nat years))).
Proof.
  unfold generate_opex. rewrite range_from_1.
  exact (opex_loop_closed start long_growth (Z.to_nat years) 0).
Qed.

(** C5: for years >= 1, [generate_opex] returns a sequence of length
    years; the elements of years 1-10 are [start] itself and every
    element from year 11 on is the previous element times
    (1 + long_growth), so the growth compounds off the year-10 value.
    [generate_opex(10, 910000, g)] is constant at 910000 for every g,
    and [generate_opex(11, 910000, 0.02)[10]] is 910000 x 1.02. *)
Theorem generate_opex_spec (years : Z) (start long_growth : Q) :
  (1 <= years)%Z ->
  (exists l,
      generate_opex years start long_growth = Ok l /\
      Z.of_nat (List.length l) = years /\
      (forall i : nat,
          (i < 10)%nat -> (Z.of_nat i < years)%Z ->
          nth_error l i = Some start) /\
      (forall i : nat,
          (10 <= i)%nat -> (Z.of_nat i < years)%Z ->
          exists prev,
            nth_error l (i - 1) = Some prev /\
            nth_error l i = Some (prev * (1 + long_growth)))) /\
  (forall g, generate_opex 10 910000 g = Ok (repeat 910000 10%nat)) /\
  (exists l x,
      generate_opex 11 910000 0.02 = Ok l /\
      nth_error l 10 = Some x /\ x == 910000 * 1.02).
Proof.
  intros Hy. split; [|split].
  - eexists. split; [apply generate_opex_closed|].
    split; [|split].
    + rewrite length_map, length_seq. lia.
    + intros i Hi Hlt. rewrite nth_error_map, nth_error_seq.
      destruct (Nat.ltb_spec i (Z.to_nat years)); [|lia].
      simpl. now rewrite opex_value_plateau.
    + intros i Hi Hlt. exists (opex_value start long_growth (i - 1)).
      rewrite !nth_error_map, !nth_error_seq.
      destruct (Nat.ltb_spec (i - 1) (Z.to_nat years)); [|lia].
      destruct (Nat.ltb_spec i (Z.to_nat years)); [|lia].
      simpl. split; [reflexivity|].
      now rewrite (opex_value_growth start long_growth i Hi).
  - intros g. rewrite generate_opex_closed. reflexivity.
  - eexists. eexists. split; [apply generate_opex_closed|].
    split; [reflexivity|]. reflexivity.
Qed.

Lemma generate_opex_spec_witness :
  (1 <= 12)%Z /\
  exists l,
    generate_opex 12 910000 0.02 = Ok l /\
    Z.of_nat (List.length l) = 12%Z /\
    (forall i : nat,
        (i < 10)%nat -> (Z.of_nat i < 12)%Z ->
        nth_error l i = Some 910000) /\
    (forall i : nat,
        (10 <= i)%nat -> (Z.of_nat i < 12)%Z ->
        exists prev,
          nth_error l (i - 1) = Some prev /\
          nth_error l i = Some (prev * (1 + 0.02))).
Proof.
  assert (H : (1 <= 12)%Z) by lia.
  split; [exact H|].
  exact (proj1 (generate_opex_spec 12 910000 0.02 H)).
Defined.

(** ** The selection loop *)

Lemma dict_get_set {V : Type} (d : list (string * V)) (key key' : string)
      (v : V) :
  Py.dict_get (Py.dict_set d key v) key' =
  if String.eqb key key' then Ok v else Py.dict_get d key'.
Proof.
  induction d as [|[k w] d IH]; simpl.
  - reflexivity.
  - destruct (String.eqb k key) eqn:E; simpl.
    + apply String.eqb_eq in E. subst k.
      destruct (String.eqb key key'); reflexivity.
    + rewrite IH. destruct (String.eqb k key') eqn:E'; [|reflexivity].
      apply String.eqb_eq in E'. subst k. now rewrite String.eqb_sym, E.
Qed.

Section Selection.

Variables (years : Z) (revenues opex_list : list Q).
Variables (tax_rate discount_rate : Q).

Let build (key : string) : result PolymerResult :=
  build_cashflow_for_polymer key years revenues opex_list
                             tax_rate discount_rate.

Lemma selection_step (visited : list string) (key : string)
      (st st' : compare_state) :
  selection_inv build visited st ->
  compare_step years revenues opex_list tax_rate discount_rate st key = Ok st' ->
  selection_inv build (visited ++ [key]) st'.
Proof.
  destruct st as [[results best_poly] best_npv]. intros [Hres Hbest] Hstep.
  unfold compare_step in Hstep. fold (build key) in Hstep.
  destruct (build key) as [r|e] eqn:Hb; simpl in Hstep; [|discriminate].
  assert (Hres' : forall k, In k (visited ++ [key]) ->
            exists res, build k = Ok res /\
                        Py.dict_get (Py.dict_set results key r) k = Ok res).
  { intros k Hk. rewrite dict_get_set.
    destruct (String.eqb key k) eqn:E.
    - apply String.eqb_eq in E. subst k. now exists r.
    - apply in_app_or in Hk. destruct Hk as [Hk | [Hk | []]].
      + apply Hres. exact Hk.
      + subst k. rewrite String.eqb_refl in E. discriminate. }
  destruct Hbest as [[-> [-> ->]] | [k [res [pre [post Hk]]]]].
  - simpl in Hstep. inversion Hstep; subst; clear Hstep.
    split; [exact Hres'|]. right.
    exists key, r, [], []. simpl. repeat split; try assumption;
      intros ? ? [].
  - destruct Hk as [-> [-> [Hbk [-> [Hpre Hpost]]]]].
    simpl in Hstep.
    destruct (Py.ltb (res_npv res) (res_npv r)) eqn:E;
      inversion Hstep; subst; clear Hstep; (split; [exact Hres'|]); right.
    + apply ltb_lt in E.
      exists key, r, (pre ++ k :: post), []. repeat split; try assumption.
      * intros k' res' Hin Hb'. apply in_app_or in Hin.
        destruct Hin as [Hin | [<- | Hin]].
        -- pose proof (Hpre k' res' Hin Hb'). lra.
        -- rewrite Hbk in Hb'. inversion Hb'; subst. exact E.
        -- pose proof (Hpost k' res' Hin Hb'). lra.
      * intros ? ? [].
    + apply ltb_ge in E.
      exists k, res, pre, (post ++ [key]). repeat split; try assumption.
      * now rewrite <- app_assoc.
      * intros k' res' Hin Hb'. apply in_app_or in Hin.
        destruct Hin as [Hin | [<- | []]].
        -- exact (Hpost k' res' Hin Hb').
        -- rewrite Hb in Hb'. inversion Hb'; subst. exact E.
Qed.

Lemma selection_loop (ks : list string) (st : compare_state) :
  for_each (compare_step years revenues opex_list tax_rate discount_rate)
           ks ([], None, NegInf) = Ok st ->
  selection_inv build ks st.
Proof.
  intros Hrun. change (selection_inv build ([] ++ ks) st).
  eapply (for_each_invariant _ (selection_inv build)); [| |exact Hrun].
  - intros pre x st0 st1. apply selection_step.
  - split; [intros k [] | left; repeat split].
Qed.

End Selection.



(** A tie in practice: at a tax rate of 100% every cash flow of the
    default scenario is 0, the three NPVs are equal, and the first
    catalog key is the one selected. *)
Example main_compare_tie :
  match main_compare 3 1 DISCOUNT_RATE_DEFAULT BASE_REVENUE_DEFAULT
                     REVENUE_GROWTH_DEFAULT OPEX_YEAR1_DEFAULT
                     OPEX_GROWTH_LONG_DEFAULT with
  | Ok (results, best_poly, _) =>
      best_poly = Some "hpam"%string /\
      Py.keys results = ["hpam"; "xanthan"; "atbs"]%string /\
      forallb (fun kv => Qeq_bool (res_npv (snd kv)) 0) results = true
  | Raise _ => False
  end.
Proof. vm_compute. repeat split. Qed.


(** * Further properties of the code *)

(** ** Algebra of [npv] *)

Lemma npv_value (cashflows : list Q) (rate v : Q) :
  ~ rate == -1 -> npv cashflows rate = Ok v ->
  v == discounted_from rate cashflows 1.
Proof.
  intros Hr Hv.
  destruct (npv_loop_ok rate cashflows Hr 1%Z 0 ltac:(lia)) as [w [Hw E]].
  unfold npv in Hv. rewrite Hw in Hv. inversion Hv; subst. rewrite E. ring.
Qed.
















(** ** The ledger in full *)

Lemma arithmetic_sum_app (l : list Q) (x : Q) :
  arithmetic_sum (l ++ [x]) == arithmetic_sum l + x.
Proof.
  unfold arithmetic_sum. induction l as [|y l IH]; simpl.
  - ring.
  - rewrite IH. ring.
Qed.

Lemma ledger_loop_full (c : Q) (revenues opex_list : list Q) (tax_rate : Q)
      (yrs : list Z) (rws : list YearRecord) (cfs : list Q) (sum : Q) :
  for_each (ledger_step c revenues opex_list tax_rate) yrs ([], [], 0)
  = Ok (rws, cfs, sum) ->
  Forall (ledger_row_from revenues opex_list) rws /\
  sum == arithmetic_sum cfs.
Proof.
  intros Hrun.
  pose (P := fun (pre : list Z) (st : ledger_state) =>
               let '(rws, cfs, sum) := st in
               Forall (ledger_row_from revenues opex_list) rws /\
               sum == arithmetic_sum cfs).
  change (P ([] ++ yrs) (rws, cfs, sum)).
  eapply (for_each_invariant _ P); [| |exact Hrun].
  - intros pre x [[rws0 cfs0] sum0] st' [Hfrom Hsum] Hstep.
    apply ledger_step_row in Hstep.
    destruct Hstep as [r [-> [Hyr [Hrev [Hopx _]]]]]. unfold P. split.
    + apply Forall_app. split; [exact Hfrom|].
      constructor; [|constructor]. unfold ledger_row_from.
      rewrite Hyr. split; assumption.
    + rewrite arithmetic_sum_app, Hsum. reflexivity.
  - unfold P. split; [constructor | reflexivity].
Qed.

Lemma build_full (poly_key : string) (years : Z) (revenues opex_list : list Q)
      (tax_rate discount_rate : Q) (res : PolymerResult) :
  build_cashflow_for_polymer poly_key years revenues opex_list
                             tax_rate discount_rate = Ok res ->
  Forall (ledger_row_from revenues opex_list) (rows res) /\
  sum_cf res == arithmetic_sum (cashflows res).
Proof.
  unfold build_cashflow_for_polymer. intros H.
  destruct (polymer_cost poly_key) as [c|e] eqn:Hc; simpl in H; [|discriminate].
  destruct (for_each _ _ _) as [[[rws cfs] sum]|e] eqn:Hloop; simpl in H;
    [|discriminate].
  destruct (npv cfs discount_rate) as [v|e] eqn:Hn; simpl in H; [|discriminate].
  inversion H; subst; clear H. simpl.
  exact (ledger_loop_full _ _ _ _ _ _ _ _ Hloop).
Qed.

(** The undiscounted total [sum_cf] of a returned ledger is the
    arithmetic sum of its cash flows, and at a discount rate of 0 the
    NPV equals it. *)
Theorem build_sum_cf (poly_key : string) (years : Z)
        (revenues opex_list : list Q) (tax_rate : Q) :
  (forall discount_rate res,
      build_cashflow_for_polymer poly_key years revenues opex_list
                                 tax_rate discount_rate = Ok res ->
      sum_cf res == arithmetic_sum (cashflows res)) /\
  (forall res,
      build_cashflow_for_polymer poly_key years revenues opex_list
                                 tax_rate 0 = Ok res ->
      res_npv res == sum_cf res).
Proof.
  split.
  - intros discount_rate res H. now apply build_full in H.
  - intros res H. pose proof (build_full _ _ _ _ _ _ _ H) as [_ Hsum].
    apply build_rows in H. destruct H as [c [_ [_ [_ [_ Hn]]]]].
    apply npv_value in Hn; [|discriminate].
    now rewrite Hn, Hsum, discounted_from_zero_rate.
Qed.

Lemma build_sum_cf_witness :
  exists res,
    build_cashflow_for_polymer "hpam" 2 [500000; 530000] [910000; 910000]
                               0.08 0 = Ok res /\
    res_npv res == sum_cf res.
Proof.
  eexists. split; [vm_compute; reflexivity|].
  apply (proj2 (build_sum_cf "hpam" 2 [500000; 530000] [910000; 910000]
                             0.08)).
  vm_compute; reflexivity.
Defined.

Lemma getitem_nth {A : Type} (l : list A) (i : Z) (x : A) :
  (0 <= i)%Z -> Py.getitem l i = Ok x ->
  nth_error l (Z.to_nat i) = Some x.
Proof.
  intros Hi. unfold Py.getitem.
  destruct (i <? 0)%Z eqn:E; [lia|]. rewrite E.
  destruct (nth_error l (Z.to_nat i)); congruence.
Qed.

Lemma range_nth (years : Z) (i : nat) :
  (i < Z.to_nat years)%nat ->
  nth_error (Py.range 1 (years + 1)) i = Some (Z.of_nat (S i)).
Proof.
  intros Hi. rewrite range_from_1, nth_error_map, nth_error_seq.
  destruct (Nat.ltb_spec i (Z.to_nat years)); [reflexivity | lia].
Qed.

(** A returned ledger has one row and one cash flow per year of the
    horizon; row [i] (from 0) is the row of year [i + 1], it carries
    [revenues[i]] and [opex_list[i]], and [cashflows[i]] is its cash
    flow. *)
Theorem build_shape (poly_key : string) (years : Z)
        (revenues opex_list : list Q) (tax_rate discount_rate : Q)
        (res : PolymerResult) :
  build_cashflow_for_polymer poly_key years revenues opex_list
                             tax_rate discount_rate = Ok res ->
  List.length (rows res) = Z.to_nat years /\
  List.length (cashflows res) = Z.to_nat years /\
  (forall i : nat,
      (i < Z.to_nat years)%nat ->
      exists r,
        nth_error (rows res) i = Some r /\
        year r = Z.of_nat (S i) /\
        nth_error revenues i = Some (revenue r) /\
        nth_error opex_list i = Some (opex r) /\
        nth_error (cashflows res) i = Some (cash_flow r)).
Proof.
  intros H. pose proof (build_full _ _ _ _ _ _ _ H) as [Hfrom _].
  apply build_rows in H. destruct H as [c [_ [Hy [_ [Hcf _]]]]].
  assert (Hlen : List.length (rows res) = Z.to_nat years).
  { rewrite <- (length_map year), Hy. apply range_length. }
  split; [exact Hlen|]. split; [now rewrite Hcf, length_map|].
  intros i Hi.
  destruct (nth_error (rows res) i) as [r|] eqn:Hr;
    [|apply nth_error_None in Hr; lia].
  exists r. split; [reflexivity|].
  assert (Hyr : year r = Z.of_nat (S i)).
  { pose proof (range_nth years i Hi) as Hn.
    rewrite <- Hy, nth_error_map, Hr in Hn. cbn [option_map] in Hn.
    now inversion Hn. }
  split; [exact Hyr|].
  rewrite Forall_forall in Hfrom.
  destruct (Hfrom r (nth_error_In _ _ Hr)) as [Hrev Hopx].
  rewrite Hyr in Hrev, Hopx.
  apply getitem_nth in Hrev; [|lia]. apply getitem_nth in Hopx; [|lia].
  replace (Z.to_nat (Z.of_nat (S i) - 1)) with i in Hrev, Hopx by lia.
  repeat split; try assumption.
  now rewrite Hcf, nth_error_map, Hr.
Qed.

Lemma build_shape_witness :
  exists res,
    build_cashflow_for_polymer "hpam" 2 [500000; 530000] [910000; 910000]
                               0.08 0.08 = Ok res /\
    List.length (rows res) = Z.to_nat 2 /\
    List.length (cashflows res) = Z.to_nat 2 /\
    (forall i : nat,
        (i < Z.to_nat 2)%nat ->
        exists r,
          nth_error (rows res) i = Some r /\
          year r = Z.of_nat (S i) /\
          nth_error [500000; 530000] i = Some (revenue r) /\
          nth_error [910000; 910000] i = Some (opex r) /\
          nth_error (cashflows res) i = Some (cash_flow r)).
Proof.
  eexists. split; [vm_compute; reflexivity|].
  apply (build_shape "hpam" 2 [500000; 530000] [910000; 910000] 0.08 0.08).
  vm_compute; reflexivity.
Defined.

(** ** Errors and surplus input of the ledger *)





Lemma for_each_ext {S A : Type} (body1 body2 : S -> A -> result S)
      (xs : list A) :
  (forall st x, In x xs -> body1 st x = body2 st x) ->
  forall st, for_each body1 xs st = for_each body2 xs st.
Proof.
  induction xs as [|x xs IH]; intros Hext st; simpl.
  - reflexivity.
  - rewrite (Hext st x (or_introl eq_refl)).
    destruct (body2 st x) as [st1|e]; simpl; [|reflexivity].
    apply IH. intros st2 y Hy. apply Hext. now right.
Qed.

Lemma getitem_firstn {A : Type} (n : nat) (l : list A) (i : Z) :
  (0 <= i < Z.of_nat n)%Z ->
  Py.getitem (firstn n l) i = Py.getitem l i.
Proof.
  intros Hi. unfold Py.getitem.
  destruct (i <? 0)%Z eqn:E; [lia|]. rewrite E.
  rewrite nth_error_firstn.
  destruct (Nat.ltb_spec (Z.to_nat i) n); [reflexivity | lia].
Qed.

(** Series longer than the horizon are accepted and the surplus is
    ignored: the result is that of the series cut to [years]
    elements. *)
Theorem build_ignores_surplus (poly_key : string) (years : Z)
        (revenues opex_list : list Q) (tax_rate discount_rate : Q) :
  build_cashflow_for_polymer poly_key years revenues opex_list
                             tax_rate discount_rate
  = build_cashflow_for_polymer
      poly_key years
      (firstn (Z.to_nat years) revenues) (firstn (Z.to_nat years) opex_list)
      tax_rate discount_rate.
Proof.
  unfold build_cashflow_for_polymer.
  destruct (polymer_cost poly_key) as [c|e]; [|reflexivity]. cbn [bind].
  rewrite (for_each_ext
             (ledger_step c revenues opex_list tax_rate)
             (ledger_step c (firstn (Z.to_nat years) revenues)
                          (firstn (Z.to_nat years) opex_list) tax_rate));
    [reflexivity|].
  intros [[rws cfs] sum] x Hx. apply range_in in Hx. unfold ledger_step.
  rewrite !getitem_firstn by lia. reflexivity.
Qed.

(** ** Tax and cash flow of a row *)



(** ** Two polymers under one configuration *)


















(** ** What the comparison of [main] returns *)

Lemma keys_dict_set_new {V : Type} (d : list (string * V)) (key : string)
      (v : V) :
  ~ In key (Py.keys d) -> Py.keys (Py.dict_set d key v) = Py.keys d ++ [key].
Proof.
  induction d as [|[k w] d IH]; simpl; intros Hnin.
  - reflexivity.
  - destruct (String.eqb k key) eqn:E.
    + apply String.eqb_eq in E. exfalso. apply Hnin. now left.
    + simpl. f_equal. apply IH. intros H. apply Hnin. now right.
Qed.

Lemma compare_loop_keys (years : Z) (revenues opex_list : list Q)
      (tax_rate discount_rate : Q) (ks : list string)
      (results : list (string * PolymerResult)) (best_poly : option string)
      (best_npv : best_value) :
  NoDup ks ->
  for_each (compare_step years revenues opex_list tax_rate discount_rate)
           ks ([], None, NegInf) = Ok (results, best_poly, best_npv) ->
  Py.keys results = ks.
Proof.
  intros Hnd Hrun.
  pose (P := fun (pre : list string) (st : compare_state) =>
               NoDup pre -> Py.keys (fst (fst st)) = pre).
  assert (HP : P ([] ++ ks) (results, best_poly, best_npv)).
  { eapply (for_each_invariant _ P); [| |exact Hrun].
    - intros pre x [[rs bp] bn] st' IH Hstep Hnd'.
      apply NoDup_remove in Hnd'. rewrite app_nil_r in Hnd'.
      destruct Hnd' as [Hpre Hx]. specialize (IH Hpre). simpl in IH.
      unfold compare_step in Hstep.
      destruct (build_cashflow_for_polymer _ _ _ _ _ _) as [r|e];
        simpl in Hstep; [|discriminate].
      destruct (gt_best _ _); inversion Hstep; subst; simpl;
        apply keys_dict_set_new; exact Hx.
    - intros _. reflexivity. }
  exact (HP Hnd).
Qed.

Lemma catalog_keys : Py.keys POLYMERS = ["hpam"; "xanthan"; "atbs"]%string.
Proof. reflexivity. Qed.

Lemma catalog_keys_nodup : NoDup (Py.keys POLYMERS).
Proof.
  rewrite catalog_keys.
  repeat constructor; simpl; intros H;
    repeat (destruct H as [H | H]; [discriminate|]); exact H.
Qed.

(** The results of the comparison hold exactly the catalog keys, in
    catalog order, each with the ledger that
    [build_cashflow_for_polymer] returns for it on the generated
    series. *)
Theorem main_compare_results (years : Z)
        (tax_rate discount_rate base_revenue revenue_growth
         opex_year1 opex_growth_long : Q)
        (results : list (string * PolymerResult))
        (best_poly : option string) (best_npv : best_value) :
  main_compare years tax_rate discount_rate base_revenue revenue_growth
               opex_year1 opex_growth_long
  = Ok (results, best_poly, best_npv) ->
  Py.keys results = Py.keys POLYMERS /\
  exists opex_list,
    generate_opex years opex_year1 opex_growth_long = Ok opex_list /\
    forall k,
      In k (Py.keys POLYMERS) ->
      exists res,
        build_cashflow_for_polymer
          k years (generate_revenues years base_revenue revenue_growth)
          opex_list tax_rate discount_rate = Ok res /\
        Py.dict_get results k = Ok res.
Proof.
  intros Hrun. unfold main_compare in Hrun.
  rewrite generate_opex_closed in Hrun. cbn [bind] in Hrun. split.
  - eapply compare_loop_keys; [apply catalog_keys_nodup | exact Hrun].
  - eexists. split; [apply generate_opex_closed|].
    apply selection_loop in Hrun. destruct Hrun as [Hres _]. exact Hres.
Qed.

Lemma main_compare_results_witness :
  exists results best_poly best_npv,
    main_compare 2 0.08 0.08 5500000 0.06 910000 0.02
    = Ok (results, best_poly, best_npv) /\
    Py.keys results = Py.keys POLYMERS /\
    exists opex_list,
      generate_opex 2 910000 0.02 = Ok opex_list /\
      forall k,
        In k (Py.keys POLYMERS) ->
        exists res,
          build_cashflow_for_polymer
            k 2 (generate_revenues 2 5500000 0.06)
            opex_list 0.08 0.08 = Ok res /\
          Py.dict_get results k = Ok res.
Proof.
  eexists. eexists. eexists. split; [vm_compute; reflexivity|].
  eapply (main_compare_results 2 0.08 0.08 5500000 0.06 910000 0.02).
  vm_compute; reflexivity.
Defined.



(** ** The shell of [main] after the comparison *)

(** The horizon chosen in step 1 always lies between 1 and 20: an
    empty or non-numeric answer gives 10, an integer answer is clamped,
    and an integer already between 1 and 20 is kept. *)
Theorem select_years_range (yrs : string) (int_yrs : option Z) :
  (1 <= select_years yrs int_yrs <= 20)%Z /\
  (forall n, yrs <> ""%string -> int_yrs = Some n -> (1 <= n <= 20)%Z ->
             select_years yrs int_yrs = n) /\
  (forall n, yrs <> ""%string -> int_yrs = Some n -> (n < 1)%Z ->
             select_years yrs int_yrs = 1%Z) /\
  (forall n, yrs <> ""%string -> int_yrs = Some n -> (20 < n)%Z ->
             select_years yrs int_yrs = 20%Z) /\
  (yrs = ""%string \/ int_yrs = None -> select_years yrs int_yrs = 10%Z).
Proof.
  unfold select_years.
  destruct (String.eqb_spec yrs "") as [E | E].
  - repeat split; try lia; intros; try contradiction; try reflexivity.
  - destruct int_yrs as [n|].
    + repeat split; try lia;
        try (intros m _ Hm ?; inversion Hm; subst; lia).
      intros [H | H]; [contradiction | discriminate].
    + repeat split; try lia; intros; discriminate.
Qed.

Lemma select_years_range_witness :
  select_years "35" (Some 35%Z) = 20%Z /\
  select_years "7" (Some 7%Z) = 7%Z /\
  select_years "ten" None = 10%Z.
Proof.
  pose proof (select_years_range "35" (Some 35%Z)) as [_ [_ [_ [H1 _]]]].
  pose proof (select_years_range "7" (Some 7%Z)) as [_ [H2 _]].
  pose proof (select_years_range "ten" None) as [_ [_ [_ [_ H3]]]].
  split; [|split].
  - apply (H1 35%Z); [discriminate | reflexivity | lia].
  - apply (H2 7%Z); [discriminate | reflexivity | lia].
  - apply H3. now right.
Defined.

Lemma dict_mem_keys {V : Type} (d : list (string * V)) (key : string) :
  dict_mem d key = true <-> In key (Py.keys d).
Proof.
  unfold dict_mem, Py.keys. rewrite existsb_exists, in_map_iff. split.
  - intros [kv [Hin E]]. apply String.eqb_eq in E. now exists kv.
  - intros [kv [E Hin]]. exists kv. split; [exact Hin|].
    now apply String.eqb_eq.
Qed.


(** What [main] holds after a returned comparison. *)
Lemma after_compare (years : Z)
      (tax_rate discount_rate base_revenue revenue_growth
       opex_year1 opex_growth_long : Q)
      (results : list (string * PolymerResult))
      (best_poly : option string) (best_npv : best_value) :
  main_compare years tax_rate discount_rate base_revenue revenue_growth
               opex_year1 opex_growth_long
  = Ok (results, best_poly, best_npv) ->
  Py.keys results = Py.keys POLYMERS /\
  (forall k,
      In k (Py.keys POLYMERS) ->
      exists res,
        build_cashflow_for_polymer
          k years (generate_revenues years base_revenue revenue_growth)
          (map (opex_value opex_year1 opex_growth_long)
               (seq 0 (Z.to_nat years)))
          tax_rate discount_rate = Ok res /\
        Py.dict_get results k = Ok res) /\
  exists k, best_poly = Some k /\ In k (Py.keys POLYMERS).
Proof.
  intros Hrun. unfold main_compare in Hrun.
  rewrite generate_opex_closed in Hrun. cbn [bind] in Hrun.
  split; [|split].
  - eapply compare_loop_keys; [apply catalog_keys_nodup | exact Hrun].
  - apply selection_loop in Hrun. now destruct Hrun as [Hres _].
  - apply selection_loop in Hrun. destruct Hrun as [_ Hbest].
    destruct Hbest as [[Hnil _] | [k [res [pre [post Hk]]]]];
      [discriminate|].
    destruct Hk as [Hsplit [-> _]]. exists k. split; [reflexivity|].
    rewrite Hsplit. apply in_elt.
Qed.



(** After a returned comparison the detail prompt never raises; a
    table is shown only for a catalog key, reached by its name or by
    its number in [key_map], with the name of that polymer and the rows
    of its ledger; every catalog key and every number 1, 2, 3 does show
    a table; "n", "no" and the empty answer stop the loop. *)
Theorem detail_after_compare (years : Z)
        (tax_rate discount_rate base_revenue revenue_growth
         opex_year1 opex_growth_long : Q)
        (results : list (string * PolymerResult))
        (best_poly : option string) (best_npv : best_value) :
  main_compare years tax_rate discount_rate base_revenue revenue_growth
               opex_year1 opex_growth_long
  = Ok (results, best_poly, best_npv) ->
  (forall ans, exists a, detail_step results ans = Ok a) /\
  (forall ans title rws,
      detail_step results ans = Ok (Show title rws) ->
      exists k data res,
        (k = ans \/ Py.dict_get key_map ans = Ok k) /\
        In k (Py.keys POLYMERS) /\
        Py.dict_get POLYMERS k = Ok data /\ title = name data /\
        Py.dict_get results k = Ok res /\ rws = rows res) /\
  (forall k,
      In k (Py.keys POLYMERS) ->
      exists data res,
        Py.dict_get POLYMERS k = Ok data /\
        Py.dict_get results k = Ok res /\
        detail_step results k = Ok (Show (name data) (rows res))) /\
  (detail_step results "1" = detail_step results "hpam" /\
   detail_step results "2" = detail_step results "xanthan" /\
   detail_step results "3" = detail_step results "atbs") /\
  (forall ans, In ans ["n"; "no"; ""]%string ->
               detail_step results ans = Ok Stop).
Proof.
  intros Hrun. apply after_compare in Hrun.
  destruct Hrun as [Hkeys [Hres _]].
  assert (Hmem : forall k, dict_mem results k = true ->
            In k (Py.keys POLYMERS) /\
            exists data res,
              Py.dict_get POLYMERS k = Ok data /\
              Py.dict_get results k = Ok res).
  { intros k Hm. apply dict_mem_keys in Hm. rewrite Hkeys in Hm.
    split; [exact Hm|].
    destruct (dict_get_in POLYMERS k Hm) as [data Hd].
    destruct (Hres k Hm) as [res [_ Hg]]. now exists data, res. }
  split; [|split; [|split; [|split]]].
  - intros ans. unfold detail_step.
    destruct (existsb _ _); [eexists; reflexivity|].
    destruct (dict_mem key_map ans) eqn:Em.
    + apply dict_mem_keys in Em.
      destruct (dict_get_in key_map ans Em) as [k ->]. cbn [bind].
      destruct (dict_mem results k) eqn:Er; [|eexists; reflexivity].
      destruct (Hmem k Er) as [_ [data [res [-> ->]]]].
      eexists; reflexivity.
    + cbn [bind].
      destruct (dict_mem results ans) eqn:Er; [|eexists; reflexivity].
      destruct (Hmem ans Er) as [_ [data [res [-> ->]]]].
      eexists; reflexivity.
  - intros ans title rws. unfold detail_step.
    destruct (existsb _ _); [discriminate|].
    assert (Hshow : forall k,
               (if dict_mem results k
                then pdata <- Py.dict_get POLYMERS k ;;
                     res <- Py.dict_get results k ;;
                     Ok (Show (name pdata) (rows res))
                else Ok UnknownKey) = Ok (Show title rws) ->
               exists data res,
                 In k (Py.keys POLYMERS) /\
                 Py.dict_get POLYMERS k = Ok data /\ title = name data /\
                 Py.dict_get results k = Ok res /\ rws = rows res).
    { intros k. destruct (dict_mem results k) eqn:Er; [|discriminate].
      destruct (Hmem k Er) as [Hin [data [res [Hd Hg]]]].
      rewrite Hd, Hg. cbn [bind]. intros H. inversion H; subst.
      exists data, res. repeat split; assumption. }
    destruct (dict_mem key_map ans) eqn:Em.
    + destruct (Py.dict_get key_map ans) as [k|e] eqn:Ek; cbn [bind];
        [|discriminate].
      intros H. destruct (Hshow k H) as [data [res Hk]].
      exists k, data, res. split; [now right | exact Hk].
    + cbn [bind]. intros H. destruct (Hshow ans H) as [data [res Hk]].
      exists ans, data, res. split; [now left | exact Hk].
  - intros k Hk.
    assert (Er : dict_mem results k = true)
      by (apply dict_mem_keys; now rewrite Hkeys).
    destruct (Hmem k Er) as [_ [data [res [Hd Hg]]]].
    exists data, res. split; [exact Hd|]. split; [exact Hg|].
    rewrite catalog_keys in Hk. simpl in Hk.
    destruct Hk as [<- | [<- | [<- | []]]];
      unfold detail_step; cbn [existsb String.eqb Ascii.eqb Bool.eqb orb
                                dict_mem key_map fst bind];
      rewrite Er, Hd, Hg; reflexivity.
  - repeat split; reflexivity.
  - intros ans Hin. simpl in Hin.
    destruct Hin as [<- | [<- | [<- | []]]]; reflexivity.
Qed.

Lemma detail_after_compare_witness :
  exists results best_poly best_npv,
    main_compare 2 0.08 0.08 5500000 0.06 910000 0.02
    = Ok (results, best_poly, best_npv) /\
    forall k,
      In k (Py.keys POLYMERS) ->
      exists data res,
        Py.dict_get POLYMERS k = Ok data /\
        Py.dict_get results k = Ok res /\
        detail_step results k = Ok (Show (name data) (rows res)).
Proof.
  eexists. eexists. eexists. split; [vm_compute; reflexivity|].
  refine (proj1 (proj2 (proj2 (detail_after_compare
                   2 0.08 0.08 5500000 0.06 910000 0.02 _ _ _ _)))).
  vm_compute; reflexivity.
Defined.

(** ** The delta series *)






(** ** The generated series *)





Lemma firstn_seq_le (n : nat) :
  forall a m : nat, (n <= m)%nat -> firstn n (seq a m) = seq a n.
Proof.
  induction n as [|n IH]; intros a m Hle.
  - reflexivity.
  - destruct m as [|m]; [lia|]. simpl. f_equal. apply IH. lia.
Qed.

(** Extending the horizon leaves the earlier years unchanged: each
    series for a shorter horizon is the prefix of the series for a
    longer one. *)
Theorem series_prefix (years1 years2 : Z)
        (start growth opex_start long_growth : Q) :
  (years1 <= years2)%Z ->
  generate_revenues years1 start growth
  = firstn (Z.to_nat years1) (generate_revenues years2 start growth) /\
  exists l2,
    generate_opex years2 opex_start long_growth = Ok l2 /\
    generate_opex years1 opex_start long_growth
    = Ok (firstn (Z.to_nat years1) l2).
Proof.
  intros Hle. split.
  - rewrite !generate_revenues_closed, firstn_map, firstn_seq_le by lia.
    reflexivity.
  - eexists. split; [apply generate_opex_closed|].
    rewrite generate_opex_closed, firstn_map, firstn_seq_le by lia.
    reflexivity.
Qed.

Lemma series_prefix_witness :
  (10 <= 12)%Z /\
  generate_revenues 10 5500000 0.06
  = firstn (Z.to_nat 10) (generate_revenues 12 5500000 0.06) /\
  exists l2,
    generate_opex 12 910000 0.02 = Ok l2 /\
    generate_opex 10 910000 0.02 = Ok (firstn (Z.to_nat 10) l2).
Proof.
  assert (H : (10 <= 12)%Z) by lia.
  split; [exact H|].
  exact (series_prefix 10 12 5500000 0.06 910000 0.02 H).
Defined.


Lemma opex_value_nonneg (start long_growth : Q) (i : nat) :
  0 <= start -> 0 <= long_growth -> 0 <= opex_value start long_growth i.
Proof.
  intros Hs Hg. induction i as [|i IH]; [exact Hs|].
  cbn [opex_value]. destruct (S i <? 10)%nat; [exact Hs | nra].
Qed.

Lemma opex_value_step (start long_growth : Q) (i : nat) :
  0 <= start -> 0 <= long_growth ->
  opex_value start long_growth i <= opex_value start long_growth (S i).
Proof.
  intros Hs Hg.
  pose proof (opex_value_nonneg start long_growth i Hs Hg) as Hn.
  destruct (Nat.ltb_spec (S i) 10) as [Hlt | Hge].
  - rewrite !opex_value_plateau by lia. lra.
  - rewrite (opex_value_growth start long_growth (S i)) by lia.
    replace (S i - 1)%nat with i by lia. nra.
Qed.

Lemma opex_value_mono (start long_growth : Q) (i j : nat) :
  0 <= start -> 0 <= long_growth -> (i <= j)%nat ->
  opex_value start long_growth i <= opex_value start long_growth j.
Proof.
  intros Hs Hg Hij. induction Hij as [|j _ IH]; [lra|].
  pose proof (opex_value_step start long_growth j Hs Hg). lra.
Qed.



(** With a non-negative starting OPEX and a non-negative long-term
    growth the OPEX series never decreases from one year to a later
    one. *)
Theorem generate_opex_monotone (years : Z) (start long_growth : Q) :
  0 <= start -> 0 <= long_growth ->
  exists l,
    generate_opex years start long_growth = Ok l /\
    forall (i j : nat) (a b : Q),
      (i <= j)%nat -> nth_error l i = Some a -> nth_error l j = Some b ->
      a <= b.
Proof.
  intros Hs Hg. eexists. split; [apply generate_opex_closed|].
  intros i j a b Hij Ha Hb.
  rewrite nth_error_map, nth_error_seq in Ha, Hb.
  destruct (i <? Z.to_nat years)%nat; [|discriminate].
  destruct (j <? Z.to_nat years)%nat; [|discriminate].
  simpl in Ha, Hb. inversion Ha; inversion Hb; subst.
  now apply opex_value_mono.
Qed.

Lemma generate_opex_monotone_witness :
  0 <= 910000 /\ 0 <= 0.02 /\
  exists l,
    generate_opex 12 910000 0.02 = Ok l /\
    forall (i j : nat) (a b : Q),
      (i <= j)%nat -> nth_error l i = Some a -> nth_error l j = Some b ->
      a <= b.
Proof.
  assert (Hs : 0 <= 910000) by discriminate.
  assert (Hg : 0 <= 0.02) by discriminate.
  split; [exact Hs|]. split; [exact Hg|].
  exact (generate_opex_monotone 12 910000 0.02 Hs Hg).
Defined.

(** A horizon of zero or fewer years is accepted everywhere: both
    series are empty and, for a key of the catalog,
    [build_cashflow_for_polymer] returns the empty ledger with NPV 0
    and total 0, whatever the series and the discount rate, -1
    included. *)
Theorem nonpositive_horizon (years : Z) :
  (years <= 0)%Z ->
  (forall start growth, generate_revenues years start growth = []) /\
  (forall start long_growth,
      generate_opex years start long_growth = Ok []) /\
  (forall poly_key revenues opex_list tax_rate discount_rate,
      In poly_key (Py.keys POLYMERS) ->
      build_cashflow_for_polymer poly_key years revenues opex_list
                                 tax_rate discount_rate
      = Ok (mkPolymerResult [] 0 0 [])).
Proof.
  intros Hy.
  assert (Hn : Z.to_nat years = 0%nat) by lia.
  split; [|split].
  - intros start growth. now rewrite generate_revenues_closed, Hn.
  - intros start long_growth. now rewrite generate_opex_closed, Hn.
  - intros poly_key revenues opex_list tax_rate discount_rate Hin.
    destruct (polymer_cost_present poly_key Hin) as [data [_ Hc]].
    unfold build_cashflow_for_polymer.
    rewrite Hc, range_from_1, Hn. reflexivity.
Qed.

Lemma nonpositive_horizon_witness :
  (0 <= 0)%Z /\
  build_cashflow_for_polymer "hpam" 0 [] [] 0.08 (-1)
  = Ok (mkPolymerResult [] 0 0 []).
Proof.
  assert (H : (0 <= 0)%Z) by lia.
  split; [exact H|].
  apply (proj2 (proj2 (nonpositive_horizon 0 H))).
  simpl. left. reflexivity.
Defined.
